(** * Fetch MCP server: the fetch pipeline of [build/index.js]

    A shallow embedding of the two tool handlers ([fetch_url], [fetch_urls]),
    of [fetchSingleUrl] and [extractReadableContent], and of the configuration
    of the markdown converter.  The libraries the program calls (axios, jsdom,
    Readability, turndown) and the clock are an interface, [Collaborators];
    everything the repository itself decides is a definition below. *)

From Stdlib Require Import String Ascii List ZArith Bool Lia DecimalString.
Import ListNotations.
Local Open Scope string_scope.
Local Open Scope Z_scope.

Set Implicit Arguments.

(* ================================================================== *)
(** ** JavaScript strings                                               *)
(* ================================================================== *)

Module JsString.

(** The line feed of the ['\n'] escapes of the source. *)
Definition nl : string := String "010"%char EmptyString.

(** Truthiness of a string: every string but the empty one. *)
Definition nonempty (s : string) : bool :=
  match s with EmptyString => false | String _ _ => true end.

(** Truthiness of a value that is a string, [null] or [undefined]. *)
Definition truthy (o : option string) : bool :=
  match o with Some s => nonempty s | None => false end.

(** [a || b] on such values. *)
Definition or_else (a b : option string) : option string :=
  if truthy a then a else b.

(** String conversion in a template literal or a [+]. *)
Definition to_string (o : option string) : string :=
  match o with Some s => s | None => "undefined" end.

(** A number in a template literal; HTTP statuses are integers. *)
Definition of_number (n : Z) : string := NilZero.string_of_int (Z.to_int n).

Fixpoint starts_with (p s : string) : bool :=
  match p, s with
  | EmptyString, _ => true
  | String a p', String b s' => if Ascii.eqb a b then starts_with p' s' else false
  | String _ _, EmptyString => false
  end.

(** [s.includes(sub)]: [sub] occurs in [s] at some position. *)
Fixpoint includes (s sub : string) : bool :=
  if starts_with sub s then true
  else match s with
       | EmptyString => false
       | String _ s' => includes s' sub
       end.

(** White space and line terminators that [String.prototype.trim] strips,
    among the characters of a [string] here (code units below 256):
    TAB, LF, VT, FF, CR, SP and NBSP. *)
Definition is_space (c : ascii) : bool :=
  let n := nat_of_ascii c in
  (Nat.leb 9 n && Nat.leb n 13) || Nat.eqb n 32 || Nat.eqb n 160.

Fixpoint trim_start (s : string) : string :=
  match s with
  | EmptyString => EmptyString
  | String c s' => if is_space c then trim_start s' else s
  end.

Fixpoint trim_end (s : string) : string :=
  match s with
  | EmptyString => EmptyString
  | String c s' =>
      let r := trim_end s' in
      if is_space c && negb (nonempty r) then EmptyString else String c r
  end.

Definition trim (s : string) : string := trim_end (trim_start s).

End JsString.
Import JsString.

(* ================================================================== *)
(** ** Plain objects used as ordered maps                               *)
(* ================================================================== *)

(** The [metadata] object: string keys in insertion order.  No key the code
    writes is an array index, so property order is insertion order. *)
Module JsObject.

Definition t := list (string * string).

Definition empty : t := [].

Fixpoint get (k : string) (o : t) : option string :=
  match o with
  | [] => None
  | (k', v) :: o' => if String.eqb k k' then Some v else get k o'
  end.

(** [o[k] = v]: an existing key keeps its place and takes the new value, a
    new key goes last. *)
Fixpoint set (k v : string) (o : t) : t :=
  match o with
  | [] => [(k, v)]
  | (k', v') :: o' =>
      if String.eqb k k' then (k', v) :: o' else (k', v') :: set k v o'
  end.

Definition keys (o : t) : list string := map fst o.
Definition entries (o : t) : list (string * string) := o.

End JsObject.

(* ================================================================== *)
(** ** Values crossing the library boundary                             *)
(* ================================================================== *)

(** What a [catch] clause can receive. *)
Inductive thrown : Type :=
| AxiosError (response : option (Z * string)) (request : bool) (message : string)
| JsError (message : string)
| NonError.

Inductive result (A : Type) : Type :=
| Ok (a : A)
| Throw (e : thrown).
Arguments Ok {A} a.
Arguments Throw {A} e.

(** What the network did with one GET, redirects followed. *)
Inductive transport_result : Type :=
| Responded (status : Z) (statusText : string) (data : string)
| NoReply (message : string)
| NotSent (message : string).

Record response : Type := mkResponse
  { r_status : Z; r_statusText : string; r_data : string }.

(** A [<meta>] element through [getAttribute]: [None] is [null]. *)
Record meta_tag : Type := mkMeta
  { attr_name : option string;
    attr_property : option string;
    attr_content : option string }.

(** The part of a parsed document the program queries:
    [querySelector('title')] with its [textContent], and
    [querySelectorAll('meta')] in document order. *)
Record document : Type := mkDocument
  { title_text : option string;
    meta_tags : list meta_tag }.

(** The object [reader.parse()] returns when it is not [null]. *)
Record parsed_article : Type := mkParsed
  { p_title : option string;
    p_content : option string;
    p_byline : option string }.

(** The object [extractReadableContent] returns when it is not [null]. *)
Record article : Type := mkArticle
  { art_title : string; art_content : string; art_byline : option string }.

(* ================================================================== *)
(** ** The markdown converter's configuration                           *)
(* ================================================================== *)

Module Turndown.

Record options : Type := mkOptions
  { headingStyle : string;
    codeBlockStyle : string;
    bulletListMarker : string;
    emDelimiter : string;
    strongDelimiter : string }.

(** A rule as [addRule] takes it: the tag names of its [filter] and its
    [replacement], a function of the first argument the converter passes.
    How the converter chooses and applies rules is the library's. *)
Record rule : Type := mkRule
  { filter : list string;
    replacement : string -> string }.

Record service : Type := mkService
  { opts : options;
    kept : list string;
    rules : list (string * rule) }.

Definition create (o : options) : service :=
  {| opts := o; kept := []; rules := [] |}.

Definition keep (names : list string) (s : service) : service :=
  {| opts := opts s; kept := names ++ kept s; rules := rules s |}.

(** [addRule] puts the rule before those added earlier. *)
Definition addRule (key : string) (r : rule) (s : service) : service :=
  {| opts := opts s; kept := kept s; rules := (key, r) :: rules s |}.

Definition strikethrough : rule :=
  {| filter := ["del"; "s"; "strike"];
     replacement := fun content => "~~" ++ content ++ "~~" |}.

Definition turndownService : service :=
  addRule "strikethrough" strikethrough
    (keep ["iframe"; "video"; "audio"]
       (create {| headingStyle := "atx";
                  codeBlockStyle := "fenced";
                  bulletListMarker := "-";
                  emDelimiter := "*";
                  strongDelimiter := "**" |})).

End Turndown.

(* ================================================================== *)
(** ** The libraries and the outside world                              *)
(* ================================================================== *)

(** [W] is the state of the network and the clock.  Parsing, extraction and
    conversion are functions of their arguments that may throw. *)
Record Collaborators (W : Type) : Type := mkCollaborators
  { transport : string -> Z -> W -> transport_result * W;
    clock : W -> string * W;
    jsdom : string -> result document;
    readability : string -> string -> result (option parsed_article);
    turndown : Turndown.service -> string -> result string }.

(** The world of a run: the outside state and the URLs [axios.get] was
    called with so far, oldest first. *)
Record world (W : Type) : Type := mkWorld
  { env : W; issued : list string }.

(** Computations that read and change the world and may throw. *)
Definition M (W A : Type) : Type := world W -> result A * world W.

Definition ret {W A} (a : A) : M W A := fun w => (Ok a, w).

Definition bind {W A B} (m : M W A) (k : A -> M W B) : M W B :=
  fun w => match m w with
           | (Ok a, w') => k a w'
           | (Throw e, w') => (Throw e, w')
           end.

Definition lift {W A} (r : result A) : M W A := fun w => (r, w).

Notation "x <- m ;; k" := (bind m (fun x => k))
  (at level 61, m at next level, right associativity).
Notation "' pat <- m ;; k" := (bind m (fun x => match x with pat => k end))
  (at level 61, pat pattern, m at next level, right associativity).

(* ================================================================== *)
(** ** Results and payloads                                             *)
(* ================================================================== *)

(** The object [fetchSingleUrl] returns: [{ success, content }] or
    [{ success, error }]; an absent field is [None]. *)
Record fetch_result : Type := mkResult
  { success : bool; content : option string; error : option string }.

(** [{ success: true, content: finalContent }]. *)
Definition succeeded (finalContent : string) : fetch_result :=
  {| success := true; content := Some finalContent; error := None |}.

(** [{ success: false, error: errorMessage }]. *)
Definition failed (errorMessage : string) : fetch_result :=
  {| success := false; content := None; error := Some errorMessage |}.

(** An element of [results] in the batch handler. *)
Record batch_entry : Type := mkEntry
  { e_url : string;
    e_success : bool;
    e_content : option string;
    e_error : option string }.

Record content_item : Type := mkItem { type : string; text : string }.

(** What a tool handler returns; [isError] is absent on success. *)
Record tool_response : Type := mkToolResponse
  { items : list content_item; isError : option bool }.

(* ================================================================== *)
(** ** The program                                                      *)
(* ================================================================== *)

Section Pipeline.

Context {W : Type} (C : Collaborators W).

Definition validateStatus (status : Z) : bool := status <? 400.

(** [axios.get(url, { timeout, headers, maxRedirects, validateStatus })]:
    a response whose status [validateStatus] refuses is thrown as an error
    that carries the response. *)
Definition axios_get (url : string) (timeout : Z) : M W response :=
  fun w =>
    let (r, e') := transport C url timeout (env w) in
    let w' := {| env := e'; issued := (issued w ++ [url])%list |} in
    match r with
    | Responded st txt d =>
        if validateStatus st then (Ok (mkResponse st txt d), w')
        else (Throw (AxiosError (Some (st, txt)) true
                       ("Request failed with status code " ++ of_number st)), w')
    | NoReply m => (Throw (AxiosError None true m), w')
    | NotSent m => (Throw (AxiosError None false m), w')
    end.

(** [new Date().toISOString()]. *)
Definition now : M W string :=
  fun w =>
    let (t, e') := clock C (env w) in
    (Ok t, {| env := e'; issued := issued w |}).

(** The [console.error] of the [catch] clause writes to the log only. *)
Definition extractReadableContent (html url : string) : option article :=
  match readability C html url with
  | Ok (Some a) =>
      match p_title a, p_content a with
      | Some t, Some c =>
          if nonempty t && nonempty c
          then Some {| art_title := t;
                       art_content := c;
                       art_byline := or_else (p_byline a) None |}
          else None
      | _, _ => None
      end
  | Ok None => None
  | Throw _ => None
  end.

(** Line 135: [tag.getAttribute('name') || tag.getAttribute('property')]. *)
Definition meta_key (tag : meta_tag) : option string :=
  or_else (attr_name tag) (attr_property tag).

(** The body of [metaTags.forEach]. *)
Definition harvest_tag (metadata : JsObject.t) (tag : meta_tag) : JsObject.t :=
  let name := meta_key tag in
  let content := attr_content tag in
  match name, content with
  | Some name, Some content =>
      if nonempty name && nonempty content then
        if includes name "description" then
          JsObject.set "description" content metadata
        else if includes name "author" then
          JsObject.set "author" content metadata
        else if includes name "keywords" then
          JsObject.set "keywords" content metadata
        else if includes name "og:" then
          JsObject.set name content metadata
        else metadata
      else metadata
  | _, _ => metadata
  end.

Definition harvest_tags (tags : list meta_tag) (metadata : JsObject.t)
  : JsObject.t :=
  fold_left harvest_tag tags metadata.

(** Lines 99 to 120: the markdown and the metadata seeded from the
    article. *)
Definition convert (html url : string) (includeMetadata simplify : bool)
  : M W (string * JsObject.t) :=
  if simplify then
    match extractReadableContent html url with
    | Some article =>
        markdownContent <-
          lift (turndown C Turndown.turndownService (art_content article)) ;;
        ret (markdownContent,
             if includeMetadata then
               let metadata := JsObject.set "title" (art_title article) JsObject.empty in
               if truthy (art_byline article)
               then JsObject.set "author" (to_string (art_byline article)) metadata
               else metadata
             else JsObject.empty)
    | None =>
        markdownContent <- lift (turndown C Turndown.turndownService html) ;;
        ret (markdownContent, JsObject.empty)
    end
  else
    markdownContent <- lift (turndown C Turndown.turndownService html) ;;
    ret (markdownContent, JsObject.empty).

(** Lines 126 to 131. *)
Definition title_fallback (doc : document) (metadata : JsObject.t) : JsObject.t :=
  if negb (truthy (JsObject.get "title" metadata)) then
    match title_text doc with
    | Some textContent => JsObject.set "title" (trim textContent) metadata
    | None => metadata
    end
  else metadata.

(** Lines 122 to 156. *)
Definition collect_metadata (html url : string) (includeMetadata : bool)
    (metadata : JsObject.t) : M W JsObject.t :=
  if includeMetadata then
    doc <- lift (jsdom C html) ;;
    let metadata := title_fallback doc metadata in
    let metadata := harvest_tags (meta_tags doc) metadata in
    let metadata := JsObject.set "url" url metadata in
    fetchedAt <- now ;;
    ret (JsObject.set "fetchedAt" fetchedAt metadata)
  else ret metadata.

Definition front_matter_line (kv : string * string) : string :=
  fst kv ++ ": " ++ snd kv ++ nl.

Definition front_matter (metadata : JsObject.t) : string :=
  "---" ++ nl
  ++ String.concat "" (map front_matter_line (JsObject.entries metadata))
  ++ "---" ++ nl ++ nl.

(** Lines 158 to 166. *)
Definition assemble (includeMetadata : bool) (metadata : JsObject.t)
    (markdownContent : string) : string :=
  (if includeMetadata && (0 <? Z.of_nat (List.length (JsObject.keys metadata)))
   then front_matter metadata else "")
  ++ markdownContent.

(** The [try] block. *)
Definition fetchSingleUrl_try (url : string) (includeMetadata simplify : bool)
    (timeout : Z) : M W fetch_result :=
  response <- axios_get url timeout ;;
  let html := r_data response in
  '(markdownContent, metadata) <- convert html url includeMetadata simplify ;;
  metadata <- collect_metadata html url includeMetadata metadata ;;
  let finalContent := assemble includeMetadata metadata markdownContent in
  ret (succeeded finalContent).

(** The [catch] block. *)
Definition errorMessage (e : thrown) : string :=
  match e with
  | AxiosError (Some (status, statusText)) _ _ =>
      "HTTP " ++ of_number status ++ ": " ++ statusText
  | AxiosError None true _ => "No response received from server"
  | AxiosError None false message => message
  | JsError message => message
  | NonError => "Failed to fetch URL"
  end.

Definition fetchSingleUrl (url : string) (includeMetadata simplify : bool)
    (timeout : Z) (w : world W) : fetch_result * world W :=
  match fetchSingleUrl_try url includeMetadata simplify timeout w with
  | (Ok r, w') => (r, w')
  | (Throw e, w') =>
      (failed (errorMessage e), w')
  end.

(** The [fetch_url] handler. *)
Definition fetch_url (url : string) (includeMetadata simplify : bool)
    (timeout : Z) (w : world W) : tool_response * world W :=
  let (result, w') := fetchSingleUrl url includeMetadata simplify timeout w in
  if success result && truthy (content result) then
    ({| items := [ {| type := "text"; text := to_string (content result) |} ];
        isError := None |}, w')
  else
    ({| items :=
          [ {| type := "text";
               text := "Error fetching " ++ url ++ ": "
                       ++ to_string (or_else (error result) (Some "Unknown error")) |} ];
        isError := Some true |}, w').

(** One turn of the first loop of [fetch_urls]. *)
Definition fetch_urls_step (includeMetadata simplify : bool) (timeout : Z)
    (acc : list batch_entry * world W) (url : string)
  : list batch_entry * world W :=
  let (results, w) := acc in
  let (result, w') := fetchSingleUrl url includeMetadata simplify timeout w in
  if success result then
    ((results ++ [ {| e_url := url; e_success := true;
                      e_content := content result; e_error := None |} ])%list, w')
  else
    ((results ++ [ {| e_url := url; e_success := false;
                      e_content := None; e_error := error result |} ])%list, w').

Definition fetch_urls_results (urls : list string)
    (includeMetadata simplify : bool) (timeout : Z) (w : world W)
  : list batch_entry * world W :=
  fold_left (fetch_urls_step includeMetadata simplify timeout) urls ([], w).

(** One turn of the second loop. *)
Definition render_step (output : string) (result : batch_entry) : string :=
  let output := output ++ "## " ++ e_url result ++ nl ++ nl in
  let output :=
    if e_success result
    then output ++ (to_string (e_content result) ++ nl ++ nl)
    else output ++ ("**Error:** " ++ to_string (e_error result) ++ nl ++ nl) in
  output ++ "---" ++ nl ++ nl.

Definition render_report (results : list batch_entry) : string :=
  fold_left render_step results ("# Batch Fetch Results" ++ nl ++ nl).

(** The [fetch_urls] handler. *)
Definition fetch_urls (urls : list string) (includeMetadata simplify : bool)
    (timeout : Z) (w : world W) : tool_response * world W :=
  let (results, w') := fetch_urls_results urls includeMetadata simplify timeout w in
  ({| items := [ {| type := "text"; text := render_report results |} ];
      isError := None |}, w').

End Pipeline.

(* ================================================================== *)
(** ** The vocabulary of the specification                              *)
(* ================================================================== *)

Module Spec.

(** FetchOutcome of the data model. *)
Inductive FetchOutcome : Type :=
| Success (text : string)
| Failure (message : string).

Definition outcome_of (r : fetch_result) : FetchOutcome :=
  if success r then Success (to_string (content r))
  else Failure (to_string (error r)).

Definition entry_outcome (e : batch_entry) : string * FetchOutcome :=
  (e_url e,
   if e_success e then Success (to_string (e_content e))
   else Failure (to_string (e_error e))).

(** The key candidate of a meta element as the specification words it:
    the name attribute, or the property attribute if name is absent. *)
Definition key_candidate (tag : meta_tag) : option string :=
  match attr_name tag with
  | Some n => Some n
  | None => attr_property tag
  end.

(** The classification as an ordered list of rules, a pattern and the
    destination key for a key candidate that contains it. *)
Definition classification : list (string * (string -> string)) :=
  [ ("description", fun _ => "description");
    ("author", fun _ => "author");
    ("keywords", fun _ => "keywords");
    ("og:", fun key => key) ].

Definition destination (key : string) : option string :=
  match find (fun rule => includes key (fst rule)) classification with
  | Some rule => Some (snd rule key)
  | None => None
  end.

(** What a meta element contributes: destination key and value. *)
Definition stored (key value : string) : option (string * string) :=
  match destination key with
  | Some d => Some (d, value)
  | None => None
  end.

(** The value an element stores under [d], if it stores one there;
    [candidate] reads the key candidate of an element, and an element
    missing a key candidate or a value is skipped. *)
Definition contribution (candidate : meta_tag -> option string) (d : string)
    (tag : meta_tag) : option string :=
  match candidate tag, attr_content tag with
  | Some k, Some c =>
      if nonempty k && nonempty c then
        match stored k c with
        | Some (d', v) => if String.eqb d d' then Some v else None
        | None => None
        end
      else None
  | _, _ => None
  end.

(** The value of the last element of [tags], in document order, that is
    stored under [d]. *)
Fixpoint last_stored (candidate : meta_tag -> option string) (d : string)
    (tags : list meta_tag) : option string :=
  match tags with
  | [] => None
  | tag :: rest =>
      match last_stored candidate d rest with
      | Some v => Some v
      | None => contribution candidate d tag
      end
  end.

(** One part of the batch report. *)
Definition report_section (uo : string * FetchOutcome) : string :=
  "## " ++ fst uo ++ nl ++ nl
  ++ match snd uo with
     | Success text => text ++ nl ++ nl
     | Failure message => "**Error:** " ++ message ++ nl ++ nl
     end
  ++ "---" ++ nl ++ nl.

Definition report (outcomes : list (string * FetchOutcome)) : string :=
  "# Batch Fetch Results" ++ nl ++ nl
  ++ String.concat "" (map report_section outcomes).

Section Batch.

Context {W : Type} (C : Collaborators W).
Variables (includeMetadata simplify : bool) (timeout : Z).

(** The pipeline run once per URL, one after the other in input order,
    each run starting in the world the previous one left, whatever its
    outcome. *)
Inductive batch_run
  : list string -> world W -> list (string * FetchOutcome) -> world W -> Prop :=
| batch_done : forall w, batch_run [] w [] w
| batch_next : forall url urls w r w1 outcomes w2,
    fetchSingleUrl C url includeMetadata simplify timeout w = (r, w1) ->
    batch_run urls w1 outcomes w2 ->
    batch_run (url :: urls) w ((url, outcome_of r) :: outcomes) w2.

End Batch.

(** The HTML fragment the pipeline converts: the article when simplify is
    set and extraction yields one, the full raw HTML otherwise. *)
Definition converted_fragment {W} (C : Collaborators W)
    (html url : string) (simplify : bool) : string :=
  if simplify then
    match extractReadableContent C html url with
    | Some a => art_content a
    | None => html
    end
  else html.

(** The keys the pipeline writes before the two synthetic ones. *)
Definition harvested_key (k : string) : bool :=
  String.eqb k "title" || String.eqb k "author" || String.eqb k "description"
  || String.eqb k "keywords" || includes k "og:".


(** The metadata seeded from the article before the harvester runs. *)
Definition seeded_metadata {W} (C : Collaborators W)
    (html url : string) (includeMetadata simplify : bool) : JsObject.t :=
  if simplify then
    match extractReadableContent C html url with
    | Some a =>
        if includeMetadata then
          match art_byline a with
          | Some b => [("title", art_title a); ("author", b)]
          | None => [("title", art_title a)]
          end
        else []
    | None => []
    end
  else [].

End Spec.

(* ================================================================== *)
(** ** A concrete site                                                  *)
(* ================================================================== *)

(** Four pages, an address that answers 404, and the answers of the
    libraries on them, to run the program on.  An empty-bodied page has
    nothing to convert: its markdown is the empty string. *)
Module Sample.

Definition blank_url := "https://example.com/blank".
Definition blank_page := "<html><head></head><body></body></html>".

Definition untitled_url := "https://example.com/untitled".
Definition untitled_page :=
  "<html><head><title> </title></head><body><p>Hi</p></body></html>".

Definition hello_url := "https://example.com/a".
Definition hello_page :=
  "<html><head><title>Hello</title><meta name='author' content='Jane'></head><body><p>Body</p></body></html>".

Definition post_url := "https://example.com/post".
Definition post_page :=
  "<html><head><title>Post</title></head><body><article><h1>Post</h1><p>Text <del>old</del></p></article></body></html>".
Definition post_content := "<div><p>Text <del>old</del></p></div>".

Definition missing_url := "https://example.com/missing".

Definition stamp := "2024-01-01T00:00:00.000Z".

Definition site (url : string) (timeout : Z) (u : unit) : transport_result * unit :=
  if String.eqb url blank_url then (Responded 200 "OK" blank_page, u)
  else if String.eqb url untitled_url then (Responded 200 "OK" untitled_page, u)
  else if String.eqb url hello_url then (Responded 200 "OK" hello_page, u)
  else if String.eqb url post_url then (Responded 200 "OK" post_page, u)
  else if String.eqb url missing_url then (Responded 404 "Not Found" "", u)
  else (NoReply "timeout exceeded", u).

Definition parse (html : string) : result document :=
  if String.eqb html untitled_page then
    Ok {| title_text := Some " "; meta_tags := [] |}
  else if String.eqb html hello_page then
    Ok {| title_text := Some "Hello";
          meta_tags := [ {| attr_name := Some "author";
                            attr_property := None;
                            attr_content := Some "Jane" |} ] |}
  else if String.eqb html post_page then
    Ok {| title_text := Some "Post"; meta_tags := [] |}
  else Ok {| title_text := None; meta_tags := [] |}.

Definition read (html url : string) : result (option parsed_article) :=
  if String.eqb html post_page then
    Ok (Some {| p_title := Some "Post";
                p_content := Some post_content;
                p_byline := None |})
  else Ok None.

Definition to_markdown (s : Turndown.service) (html : string) : result string :=
  if String.eqb html untitled_page then Ok "Hi"
  else if String.eqb html hello_page then Ok ("Hello" ++ nl ++ nl ++ "Body")
  else if String.eqb html post_content then
    Ok "Text ~~old~~"
  else if String.eqb html post_page then
    Ok ("Post" ++ nl ++ nl ++ "# Post" ++ nl ++ nl ++ "Text ~~old~~")
  else Ok "".

Definition libs : Collaborators unit :=
  {| transport := site;
     clock := fun u => (stamp, u);
     jsdom := parse;
     readability := read;
     turndown := to_markdown |}.

Definition w0 : world unit := {| env := tt; issued := [] |}.

Definition opengraph_tags : list meta_tag :=
  [ {| attr_name := None; attr_property := Some "og:title";
       attr_content := Some "First" |};
    {| attr_name := Some "twitter:description"; attr_property := None;
       attr_content := Some "Short" |};
    {| attr_name := Some "viewport"; attr_property := None;
       attr_content := Some "width=device-width" |};
    {| attr_name := None; attr_property := Some "og:title";
       attr_content := Some "Second" |};
    {| attr_name := Some "og:description"; attr_property := None;
       attr_content := Some "Long" |} ].

End Sample.

(* ================================================================== *)
(** ** A second site: faults and an article with a byline               *)
(* ================================================================== *)

Module Fixture.

Definition broken_url := "https://example.com/broken".
Definition broken_page := "<p>unconvertible</p>".

Definition odd_url := "https://example.com/odd".
Definition odd_page := "<p>odd</p>".

Definition unparsed_url := "https://example.com/unparsed".
Definition unparsed_page := "<p>unparsable</p>".

Definition essay_url := "https://example.com/essay".
Definition essay_page :=
  "<html><head><title> Essay | Site </title><meta name='author' content='Bob'><meta property='og:title' content='Essay OG'></head><body><article><h1>Essay</h1><p>Words</p></article></body></html>".
Definition essay_content := "<div><p>Words</p></div>".

Definition silent_url := "https://example.com/silent".

Definition stamp := "2024-02-02T00:00:00.000Z".

(** The outside state counts the clock readings. *)
Definition site (url : string) (timeout : Z) (n : nat) : transport_result * nat :=
  if String.eqb url broken_url then (Responded 200 "OK" broken_page, n)
  else if String.eqb url odd_url then (Responded 200 "OK" odd_page, n)
  else if String.eqb url unparsed_url then (Responded 200 "OK" unparsed_page, n)
  else if String.eqb url essay_url then (Responded 200 "OK" essay_page, n)
  else if String.eqb url silent_url then (NoReply "timeout of 30000ms exceeded", n)
  else (NotSent "Invalid URL", n).

Definition parse (html : string) : result document :=
  if String.eqb html unparsed_page then Throw (JsError "parse failed")
  else if String.eqb html essay_page then
    Ok {| title_text := Some " Essay | Site ";
          meta_tags := [ {| attr_name := Some "author";
                            attr_property := None;
                            attr_content := Some "Bob" |};
                         {| attr_name := None;
                            attr_property := Some "og:title";
                            attr_content := Some "Essay OG" |} ] |}
  else Ok {| title_text := None; meta_tags := [] |}.

Definition read (html url : string) : result (option parsed_article) :=
  if String.eqb html unparsed_page then Throw (JsError "no document")
  else if String.eqb html essay_page then
    Ok (Some {| p_title := Some "Essay";
                p_content := Some essay_content;
                p_byline := Some "Ann" |})
  else Ok None.

Definition to_markdown (s : Turndown.service) (html : string) : result string :=
  if String.eqb html broken_page then Throw (JsError "conversion failed")
  else if String.eqb html odd_page then Throw NonError
  else if String.eqb html essay_content then Ok "Words"
  else Ok "plain".

Definition libs : Collaborators nat :=
  {| transport := site;
     clock := fun n => (stamp, S n);
     jsdom := parse;
     readability := read;
     turndown := to_markdown |}.

Definition w0 : world nat := {| env := 0%nat; issued := [] |}.

End Fixture.

(** An entry of [results] as the first loop builds it: a success with its
    text and no error, or a failure with its message and no text. *)
Definition well_formed_entry (e : batch_entry) : Prop :=
  (e_success e = true /\ (exists text, e_content e = Some text) /\ e_error e = None)
  \/ (e_success e = false /\ e_content e = None
      /\ (exists message, e_error e = Some message)).


(** The entry the first loop of [fetch_urls] pushes for a result. *)
Definition entry_of (url : string) (result : fetch_result) : batch_entry :=
  if success result then
    {| e_url := url; e_success := true;
       e_content := content result; e_error := None |}
  else
    {| e_url := url; e_success := false;
       e_content := None; e_error := error result |}.

Unset Implicit Arguments.

(* ================================================================== *)
(** ** Strings and objects: basic facts                                 *)
(* ================================================================== *)

Section StringFacts.

Lemma nonempty_true (s : string) : nonempty s = true <-> s <> "".
Proof.
  destruct s; simpl; split; intro H; congruence.
Qed.

Lemma nonempty_false (s : string) : nonempty s = false <-> s = "".
Proof.
  destruct s; simpl; split; intro H; congruence.
Qed.

Lemma truthy_some (o : option string) :
  truthy o = true <-> exists s, o = Some s /\ s <> "".
Proof.
  destruct o as [s|]; simpl.
  - rewrite nonempty_true. split.
    + intro H. now exists s.
    + intros (s' & E & H). now inversion E; subst.
  - split; [discriminate | intros (s & E & _); discriminate].
Qed.

Lemma app_empty_r (s : string) : s ++ "" = s.
Proof. induction s; simpl; congruence. Qed.

Lemma app_assoc (a b c : string) : (a ++ b) ++ c = a ++ (b ++ c).
Proof. induction a; simpl; congruence. Qed.

Lemma nonempty_app (a b : string) :
  nonempty (a ++ b) = nonempty a || nonempty b.
Proof. destruct a; simpl; reflexivity. Qed.

Lemma starts_with_spec (p s : string) :
  starts_with p s = true <-> exists r, s = p ++ r.
Proof.
  revert s. induction p as [|a p IH]; intros s; simpl.
  - split; [intros _; now exists s | reflexivity].
  - destruct s as [|b s].
    + split; [discriminate | intros (r & E); discriminate].
    + destruct (Ascii.eqb_spec a b) as [->|N].
      * rewrite IH. split; intros (r & E); exists r; congruence.
      * split; [discriminate | intros (r & E); congruence].
Qed.

(** [includes] is the substring test. *)
Lemma includes_spec (s sub : string) :
  includes s sub = true <-> exists a b, s = a ++ sub ++ b.
Proof.
  induction s as [|c s IH]; simpl.
  - destruct (starts_with sub "") eqn:E.
    + apply starts_with_spec in E. destruct E as (r & E).
      split; [intros _; now exists "", r | reflexivity].
    + split; [discriminate |].
      intros (a & b & H). destruct a; simpl in H.
      * assert (starts_with sub "" = true) by (apply starts_with_spec; eauto).
        congruence.
      * discriminate.
  - destruct (starts_with sub (String c s)) eqn:E.
    + apply starts_with_spec in E. destruct E as (r & E).
      split; [intros _; now exists "", r | reflexivity].
    + rewrite IH. split.
      * intros (a & b & H). exists (String c a), b. simpl. congruence.
      * intros (a & b & H). destruct a as [|c' a]; simpl in H.
        -- assert (starts_with sub (String c s) = true)
             by (apply starts_with_spec; eauto).
           congruence.
        -- exists a, b. congruence.
Qed.

Lemma trim_start_spaces (s : string) :
  (forall c, In c (list_ascii_of_string s) -> is_space c = true) ->
  trim_start s = "".
Proof.
  induction s as [|c s IH]; simpl; intro H; [reflexivity|].
  rewrite (H c) by now left. apply IH. intros c' Hc. apply H. now right.
Qed.

(** A string of white space only is trimmed to the empty string. *)
Lemma trim_spaces (s : string) :
  (forall c, In c (list_ascii_of_string s) -> is_space c = true) ->
  trim s = "".
Proof.
  intro H. unfold trim. now rewrite trim_start_spaces.
Qed.

Lemma concat_app (xs ys : list string) :
  String.concat "" (xs ++ ys) = String.concat "" xs ++ String.concat "" ys.
Proof.
  induction xs as [|x xs IH]; simpl; [reflexivity|].
  destruct xs as [|x' xs]; simpl in *.
  - destruct ys; simpl; [now rewrite app_empty_r | reflexivity].
  - rewrite IH. now rewrite app_assoc.
Qed.

End StringFacts.

(** Both sides of an equation between concatenations, brought to one
    right-nested form. *)
Ltac normalize_strings :=
  unfold nl; repeat first [rewrite app_assoc | progress simpl].

Section ObjectFacts.

Import JsObject.

Lemma get_set_same (k v : string) (o : t) : get k (set k v o) = Some v.
Proof.
  induction o as [|[k' v'] o IH]; simpl.
  - now rewrite String.eqb_refl.
  - destruct (String.eqb k k') eqn:E; simpl; rewrite E; auto.
Qed.

Lemma get_set_other (k k' v : string) (o : t) :
  k <> k' -> get k' (set k v o) = get k' o.
Proof.
  intro N. induction o as [|[k1 v1] o IH]; simpl.
  - destruct (String.eqb_spec k' k); congruence.
  - destruct (String.eqb_spec k k1) as [->|N1]; simpl.
    + destruct (String.eqb_spec k' k1); congruence.
    + destruct (String.eqb_spec k' k1); congruence.
Qed.

Lemma get_none_not_in (k : string) (o : t) :
  get k o = None <-> ~ In k (keys o).
Proof.
  induction o as [|[k' v'] o IH]; simpl.
  - tauto.
  - destruct (String.eqb_spec k k') as [->|N].
    + split; [discriminate | intro H; contradiction H; now left].
    + rewrite IH. split; intro H; [intros [E|I]; congruence | tauto].
Qed.

(** Writing a key the object does not have appends the entry. *)
Lemma set_fresh (k v : string) (o : t) :
  ~ In k (keys o) -> set k v o = (o ++ [(k, v)])%list.
Proof.
  induction o as [|[k' v'] o IH]; simpl; intro H; [reflexivity|].
  destruct (String.eqb_spec k k') as [->|N]; [tauto|].
  rewrite IH; tauto.
Qed.

(** Writing a key never removes one, and adds at most that key. *)
Lemma in_keys_set (k k' v : string) (o : t) :
  In k' (keys (set k v o)) <-> k' = k \/ In k' (keys o).
Proof.
  induction o as [|[k1 v1] o IH]; simpl.
  - intuition congruence.
  - destruct (String.eqb_spec k k1) as [->|N]; simpl.
    + intuition congruence.
    + rewrite IH. intuition congruence.
Qed.


End ObjectFacts.

(* ================================================================== *)
(** ** The metadata harvester                                           *)
(* ================================================================== *)

Section Harvester.

Import JsObject.

(** The key candidate the code reads is the one the specification
    describes, unless the name attribute is present and empty: the code
    then reads the property attribute. *)
Lemma meta_key_candidate (tag : meta_tag) :
  attr_name tag <> Some "" -> meta_key tag = Spec.key_candidate tag.
Proof.
  unfold meta_key, Spec.key_candidate, or_else.
  destruct (attr_name tag) as [[|c n]|]; simpl; congruence.
Qed.

Lemma destination_cases (k : string) :
  Spec.destination k =
    if includes k "description" then Some "description"
    else if includes k "author" then Some "author"
    else if includes k "keywords" then Some "keywords"
    else if includes k "og:" then Some k
    else None.
Proof.
  unfold Spec.destination, Spec.classification. simpl find.
  repeat match goal with
         | |- context [if includes k ?p then _ else _] =>
             destruct (includes k p); simpl; try reflexivity
         end.
Qed.

(** The if-chain of the loop body is the ordered rule list. *)
Lemma harvest_tag_stored (md : t) (tag : meta_tag) :
  harvest_tag md tag =
    match meta_key tag, attr_content tag with
    | Some k, Some c =>
        if nonempty k && nonempty c then
          match Spec.stored k c with
          | Some (d, v) => set d v md
          | None => md
          end
        else md
    | _, _ => md
    end.
Proof.
  unfold harvest_tag.
  destruct (meta_key tag) as [k|]; [|reflexivity].
  destruct (attr_content tag) as [c|]; [|reflexivity].
  destruct (nonempty k && nonempty c); [|reflexivity].
  unfold Spec.stored. rewrite destination_cases.
  repeat match goal with
         | |- context [if includes k ?p then _ else _] =>
             destruct (includes k p); simpl; try reflexivity
         end.
Qed.

Lemma get_harvest_tag (md : t) (tag : meta_tag) (d : string) :
  get d (harvest_tag md tag) =
    match Spec.contribution meta_key d tag with
    | Some v => Some v
    | None => get d md
    end.
Proof.
  rewrite harvest_tag_stored. unfold Spec.contribution.
  destruct (meta_key tag) as [k|]; [|reflexivity].
  destruct (attr_content tag) as [c|]; [|reflexivity].
  destruct (nonempty k && nonempty c); [|reflexivity].
  destruct (Spec.stored k c) as [[d' v]|]; [|reflexivity].
  destruct (String.eqb_spec d d') as [->|N].
  - apply get_set_same.
  - apply get_set_other. congruence.
Qed.

Lemma get_harvest_tags (tags : list meta_tag) (md : t) (d : string) :
  get d (harvest_tags tags md) =
    match Spec.last_stored meta_key d tags with
    | Some v => Some v
    | None => get d md
    end.
Proof.
  unfold harvest_tags. revert md.
  induction tags as [|tag rest IH]; intro md; simpl; [reflexivity|].
  rewrite IH.
  destruct (Spec.last_stored meta_key d rest); [reflexivity|].
  apply get_harvest_tag.
Qed.

(** C4.  A meta element that carries a key candidate (its name attribute,
    or its property attribute when it has no name attribute) and a content
    value is stored by the first rule that matches, in the order
    description, author, keywords, og:, the last under the candidate
    itself, and is ignored when none matches; after the whole loop each
    key holds the value of the last element, in document order, stored
    under it. *)
Theorem harvest_classification :
  (forall (md : t) (tag : meta_tag) (k c : string),
      Spec.key_candidate tag = Some k -> k <> "" ->
      attr_content tag = Some c -> c <> "" ->
      harvest_tag md tag =
        if includes k "description" then set "description" c md
        else if includes k "author" then set "author" c md
        else if includes k "keywords" then set "keywords" c md
        else if includes k "og:" then set k c md
        else md)
  /\ (forall (tags : list meta_tag) (md : t) (d : string),
        get d (harvest_tags tags md) =
          match Spec.last_stored meta_key d tags with
          | Some v => Some v
          | None => get d md
          end).
Proof.
  split.
  - intros md tag k c Hk Nk Hc Nc.
    assert (Hm : meta_key tag = Some k).
    { rewrite meta_key_candidate; [exact Hk|].
      intro E. unfold Spec.key_candidate in Hk. rewrite E in Hk. congruence. }
    unfold harvest_tag. rewrite Hm, Hc.
    apply nonempty_true in Nk. apply nonempty_true in Nc.
    rewrite Nk, Nc. reflexivity.
  - apply get_harvest_tags.
Qed.

Lemma harvest_classification_witness :
  harvest_tag [("title", "T")]
    {| attr_name := None; attr_property := Some "og:description";
       attr_content := Some "Long" |}
  = [("title", "T"); ("description", "Long")]
  /\ get "og:title" (harvest_tags Sample.opengraph_tags []) = Some "Second".
Proof.
  destruct harvest_classification as [Hone Hall]. split.
  - rewrite (Hone [("title", "T")] _ "og:description" "Long");
      [reflexivity | reflexivity | discriminate | reflexivity | discriminate].
  - rewrite Hall. reflexivity.
Defined.

End Harvester.

(* ================================================================== *)
(** ** The single-URL pipeline                                          *)
(* ================================================================== *)

Section PipelineFacts.

Context {W : Type} (C : Collaborators W).

Import JsObject.

Lemma extract_byline (html url : string) (a : article) :
  extractReadableContent C html url = Some a ->
  art_title a <> "" /\ art_content a <> ""
  /\ (forall b, art_byline a = Some b -> b <> "").
Proof.
  unfold extractReadableContent.
  destruct (readability C html url) as [[p|]|]; try discriminate.
  destruct (p_title p) as [t|]; try discriminate.
  destruct (p_content p) as [c|]; try discriminate.
  destruct (nonempty t) eqn:Et; try discriminate.
  destruct (nonempty c) eqn:Ec; try discriminate.
  simpl. intro E. inversion E; subst; clear E. simpl.
  apply nonempty_true in Et. apply nonempty_true in Ec.
  repeat split; trivial.
  intros b Hb. unfold or_else in Hb.
  destruct (truthy (p_byline p)) eqn:Eb; [|discriminate].
  apply truthy_some in Eb. destruct Eb as (s0 & E1 & E2). congruence.
Qed.

(** The first stage yields the conversion of the fragment the
    specification names, and the seeded metadata. *)
Lemma convert_run (html url : string) (includeMetadata simplify : bool)
    (w : world W) :
  convert C html url includeMetadata simplify w =
    match turndown C Turndown.turndownService
            (Spec.converted_fragment C html url simplify) with
    | Ok md => (Ok (md, Spec.seeded_metadata C html url includeMetadata simplify), w)
    | Throw e => (Throw e, w)
    end.
Proof.
  unfold convert, Spec.converted_fragment, Spec.seeded_metadata, bind, lift, ret.
  destruct simplify; simpl.
  - destruct (extractReadableContent C html url) as [a|] eqn:Ea.
    + destruct (turndown C Turndown.turndownService (art_content a)); [|reflexivity].
      destruct includeMetadata; [|reflexivity].
      destruct (extract_byline _ _ _ Ea) as (_ & _ & Hb).
      destruct (art_byline a) as [b|]; simpl; [|reflexivity].
      specialize (Hb b eq_refl). apply nonempty_true in Hb. now rewrite Hb.
    + now destruct (turndown C Turndown.turndownService html).
  - now destruct (turndown C Turndown.turndownService html).
Qed.

(** The whole of [fetchSingleUrl], one case per way a run can go. *)
Lemma fetchSingleUrl_run (url : string) (includeMetadata simplify : bool)
    (timeout : Z) (w : world W) :
  fetchSingleUrl C url includeMetadata simplify timeout w =
    let (r, e1) := transport C url timeout (env w) in
    let w1 := {| env := e1; issued := (issued w ++ [url])%list |} in
    match r with
    | Responded st txt html =>
        if st <? 400 then
          match turndown C Turndown.turndownService
                  (Spec.converted_fragment C html url simplify) with
          | Throw e => (failed (errorMessage e), w1)
          | Ok md =>
              if includeMetadata then
                match jsdom C html with
                | Throw e => (failed (errorMessage e), w1)
                | Ok doc =>
                    let (ts, e2) := clock C e1 in
                    (succeeded
                       (assemble true
                          (set "fetchedAt" ts
                             (set "url" url
                                (harvest_tags (meta_tags doc)
                                   (title_fallback doc
                                      (Spec.seeded_metadata C html url true simplify)))))
                          md),
                     {| env := e2; issued := (issued w ++ [url])%list |})
                end
              else (succeeded md, w1)
          end
        else (failed ("HTTP " ++ of_number st ++ ": " ++ txt), w1)
    | NoReply _ => (failed "No response received from server", w1)
    | NotSent m => (failed m, w1)
    end.
Proof.
  unfold fetchSingleUrl, fetchSingleUrl_try, bind.
  unfold axios_get at 1, validateStatus.
  destruct (transport C url timeout (env w)) as [r e1].
  destruct r as [st txt html|m|m]; simpl; try reflexivity.
  destruct (st <? 400); simpl; [|reflexivity].
  rewrite convert_run.
  destruct (turndown C Turndown.turndownService
              (Spec.converted_fragment C html url simplify)) as [md|e];
    [|reflexivity].
  unfold collect_metadata, bind, lift, ret, now.
  destruct includeMetadata; simpl.
  - destruct (jsdom C html) as [doc|e]; [|reflexivity].
    simpl. destruct (clock C e1) as [ts e2]. reflexivity.
  - unfold Spec.seeded_metadata.
    destruct simplify; [|reflexivity].
    now destruct (extractReadableContent C html url).
Qed.

(** [fetchSingleUrl] returns on every input, a success with a text or a
    failure with a message. *)
Lemma fetchSingleUrl_outcome (url : string) (includeMetadata simplify : bool)
    (timeout : Z) (w : world W) :
  (exists finalContent,
      fst (fetchSingleUrl C url includeMetadata simplify timeout w)
      = succeeded finalContent)
  \/ (exists message,
        fst (fetchSingleUrl C url includeMetadata simplify timeout w)
        = failed message).
Proof.
  rewrite fetchSingleUrl_run.
  destruct (transport C url timeout (env w)) as [tr e1].
  destruct tr as [st txt html|m|m]; simpl; eauto.
  destruct (st <? 400); simpl; eauto.
  destruct (turndown C Turndown.turndownService _); simpl; eauto.
  destruct includeMetadata; simpl; eauto.
  destruct (jsdom C html); simpl; eauto.
  destruct (clock C e1); simpl; eauto.
Qed.

Lemma length_keys_set (k v : string) (o : t) :
  (0 <? Z.of_nat (List.length (keys (set k v o)))) = true.
Proof.
  destruct o as [|[k' v'] o]; simpl; [reflexivity|].
  destruct (String.eqb k k'); simpl; apply Z.ltb_lt; lia.
Qed.

(** C3.  A response with status 400 or more makes [fetchSingleUrl] return
    a failure whose message is HTTP, the status, a colon and the status
    text of that response. *)
Theorem http_status_failure (url : string) (includeMetadata simplify : bool)
    (timeout : Z) (w : world W) (status : Z) (statusText data : string) :
  fst (transport C url timeout (env w)) = Responded status statusText data ->
  400 <= status ->
  fst (fetchSingleUrl C url includeMetadata simplify timeout w)
  = {| success := false;
       content := None;
       error := Some ("HTTP " ++ of_number status ++ ": " ++ statusText) |}.
Proof.
  intros Ht Hs. rewrite fetchSingleUrl_run.
  destruct (transport C url timeout (env w)) as [r e1]. simpl in Ht. subst r.
  assert (E : (status <? 400) = false) by (apply Z.ltb_ge; lia).
  rewrite E. reflexivity.
Qed.

(** C2, amended.  A response with status below 400 whose body the parser
    and the converter accept makes [fetchSingleUrl] return a success; its
    text is non-empty exactly when metadata is requested or the converted
    markdown is non-empty. *)
Theorem success_text (url : string) (includeMetadata simplify : bool)
    (timeout : Z) (w : world W) (status : Z) (statusText html md : string) :
  fst (transport C url timeout (env w)) = Responded status statusText html ->
  status < 400 ->
  turndown C Turndown.turndownService
    (Spec.converted_fragment C html url simplify) = Ok md ->
  (includeMetadata = true -> exists doc, jsdom C html = Ok doc) ->
  exists finalContent,
    fst (fetchSingleUrl C url includeMetadata simplify timeout w)
    = {| success := true; content := Some finalContent; error := None |}
    /\ nonempty finalContent = (includeMetadata || nonempty md)%bool.
Proof.
  intros Ht Hs Hmd Hdoc. rewrite fetchSingleUrl_run.
  destruct (transport C url timeout (env w)) as [r e1]. simpl in Ht. subst r.
  assert (E : (status <? 400) = true) by (apply Z.ltb_lt; lia).
  rewrite E, Hmd.
  destruct includeMetadata.
  - destruct (Hdoc eq_refl) as [doc Hd]. rewrite Hd.
    destruct (clock C e1) as [ts e2]. simpl fst.
    eexists. split; [reflexivity|].
    unfold assemble. rewrite length_keys_set. reflexivity.
  - exists md. split; reflexivity.
Qed.

(** C10.  When [fetchSingleUrl] returns a success whose text is the empty
    string, [fetch_url] answers with the error-flagged payload that reads
    Error fetching, the URL, and Unknown error. *)
Theorem fetch_url_empty_success (url : string) (includeMetadata simplify : bool)
    (timeout : Z) (w w' : world W) :
  fetchSingleUrl C url includeMetadata simplify timeout w
  = ({| success := true; content := Some ""; error := None |}, w') ->
  fetch_url C url includeMetadata simplify timeout w
  = ({| items := [ {| type := "text";
                      text := "Error fetching " ++ url ++ ": Unknown error" |} ];
        isError := Some true |}, w').
Proof.
  intro H. unfold fetch_url. rewrite H. reflexivity.
Qed.

(* ---------------------------------------------------------------- *)
(** *** The keys of the metadata object                               *)

Lemma seeded_keys (html url : string) (includeMetadata simplify : bool) (k : string) :
  In k (keys (Spec.seeded_metadata C html url includeMetadata simplify)) ->
  Spec.harvested_key k = true.
Proof.
  unfold Spec.seeded_metadata.
  destruct simplify; [|contradiction].
  destruct (extractReadableContent C html url) as [a|]; [|contradiction].
  destruct includeMetadata; [|contradiction].
  destruct (art_byline a); simpl; intuition (subst; reflexivity).
Qed.

Lemma title_fallback_keys (doc : document) (md : t) (k : string) :
  In k (keys (title_fallback doc md)) -> k = "title" \/ In k (keys md).
Proof.
  unfold title_fallback.
  destruct (negb (truthy (get "title" md))); [|tauto].
  destruct (title_text doc); [|tauto].
  apply in_keys_set.
Qed.

Lemma harvest_tag_keys (md : t) (tag : meta_tag) (k : string) :
  In k (keys (harvest_tag md tag)) ->
  Spec.harvested_key k = true \/ In k (keys md).
Proof.
  unfold harvest_tag.
  destruct (meta_key tag) as [name|]; [|tauto].
  destruct (attr_content tag) as [c|]; [|tauto].
  destruct (nonempty name && nonempty c); [|tauto].
  destruct (includes name "description");
    [rewrite in_keys_set; intros [->|H]; auto|].
  destruct (includes name "author");
    [rewrite in_keys_set; intros [->|H]; auto|].
  destruct (includes name "keywords");
    [rewrite in_keys_set; intros [->|H]; auto|].
  destruct (includes name "og:") eqn:E; [|tauto].
  rewrite in_keys_set; intros [->|H]; auto.
  left. unfold Spec.harvested_key. rewrite E. now rewrite !orb_true_r.
Qed.

Lemma harvest_tags_keys (tags : list meta_tag) (md : t) (k : string) :
  In k (keys (harvest_tags tags md)) ->
  Spec.harvested_key k = true \/ In k (keys md).
Proof.
  unfold harvest_tags. revert md.
  induction tags as [|tag rest IH]; intro md; simpl; [tauto|].
  intro H. apply IH in H. destruct H as [H|H]; [now left|].
  now apply harvest_tag_keys in H.
Qed.

(** Before the synthetic entries are written, every key is one the
    harvester or the article wrote. *)
Lemma harvested_keys (html url : string) (simplify : bool) (doc : document)
    (k : string) :
  In k (keys (harvest_tags (meta_tags doc)
                (title_fallback doc
                   (Spec.seeded_metadata C html url true simplify)))) ->
  Spec.harvested_key k = true.
Proof.
  intro H. apply harvest_tags_keys in H. destruct H as [H|H]; [exact H|].
  apply title_fallback_keys in H. destruct H as [->|H]; [reflexivity|].
  exact (seeded_keys _ _ _ _ _ H).
Qed.

(** The two synthetic entries go last, in this order. *)
Lemma synthetic_entries_last (pre : t) (url ts : string) :
  (forall k, In k (keys pre) -> Spec.harvested_key k = true) ->
  set "fetchedAt" ts (set "url" url pre)
  = (pre ++ [("url", url); ("fetchedAt", ts)])%list.
Proof.
  intro Hk.
  assert (Hu : ~ In "url" (keys pre)).
  { intro H. apply Hk in H. discriminate. }
  assert (Hf : ~ In "fetchedAt" (keys pre)).
  { intro H. apply Hk in H. discriminate. }
  rewrite (set_fresh "url" url pre Hu).
  rewrite set_fresh.
  - rewrite <- List.app_assoc. reflexivity.
  - unfold keys. rewrite map_app, in_app_iff. simpl.
    intros [H|[H|[]]]; [now apply Hf | discriminate].
Qed.

Lemma front_matter_synthetic (pre : t) (url ts : string) :
  front_matter (pre ++ [("url", url); ("fetchedAt", ts)])%list
  = "---" ++ nl ++ String.concat "" (map front_matter_line pre)
    ++ "url: " ++ url ++ nl ++ "fetchedAt: " ++ ts ++ nl ++ "---" ++ nl ++ nl.
Proof.
  unfold front_matter, entries, front_matter_line.
  rewrite map_app, concat_app.
  normalize_strings. reflexivity.
Qed.

End PipelineFacts.

(** C2.  The blank page is served with status 200 and every library accepts
    it, yet the text of the success is empty. *)
Lemma success_text_can_be_empty :
  fst (Sample.site Sample.blank_url 30000 tt) = Responded 200 "OK" Sample.blank_page
  /\ 200 < 400
  /\ Sample.parse Sample.blank_page = Ok {| title_text := None; meta_tags := [] |}
  /\ Sample.to_markdown Turndown.turndownService Sample.blank_page = Ok ""
  /\ fst (fetchSingleUrl Sample.libs Sample.blank_url false false 30000 Sample.w0)
     = {| success := true; content := Some ""; error := None |}
  /\ ~ (exists finalContent,
          content (fst (fetchSingleUrl Sample.libs Sample.blank_url false false
                          30000 Sample.w0)) = Some finalContent
          /\ finalContent <> "").
Proof.
  repeat split; try reflexivity.
  intros (finalContent & E & N). apply N. now injection E.
Qed.

Lemma http_status_failure_witness :
  fst (fetchSingleUrl Sample.libs Sample.missing_url false true 30000 Sample.w0)
  = {| success := false; content := None; error := Some "HTTP 404: Not Found" |}.
Proof.
  apply (http_status_failure Sample.libs Sample.missing_url false true 30000
           Sample.w0 404 "Not Found" "");
    [reflexivity | lia].
Defined.

Lemma success_text_witness :
  exists finalContent,
    fst (fetchSingleUrl Sample.libs Sample.hello_url true true 30000 Sample.w0)
    = {| success := true; content := Some finalContent; error := None |}
    /\ nonempty finalContent = (true || nonempty ("Hello" ++ nl ++ nl ++ "Body"))%bool.
Proof.
  apply (success_text Sample.libs Sample.hello_url true true 30000 Sample.w0
           200 "OK" Sample.hello_page ("Hello" ++ nl ++ nl ++ "Body"));
    [reflexivity | lia | reflexivity | intros _; eexists; reflexivity].
Defined.

Lemma fetch_url_empty_success_witness :
  fetch_url Sample.libs Sample.blank_url false true 30000 Sample.w0
  = ({| items := [ {| type := "text";
                      text := "Error fetching https://example.com/blank: Unknown error" |} ];
        isError := Some true |}, {| env := tt; issued := [Sample.blank_url] |}).
Proof.
  apply (fetch_url_empty_success Sample.libs Sample.blank_url false true 30000
           Sample.w0 {| env := tt; issued := [Sample.blank_url] |}).
  reflexivity.
Defined.

(* ================================================================== *)
(** ** Front matter and fallback                                        *)
(* ================================================================== *)

Section Assembly.

Context {W : Type} (C : Collaborators W).

Import JsObject.

(** C7.  With metadata requested, a run that reaches assembly yields a
    text that opens with a front-matter block whose last two lines are
    the url entry, holding the requested URL, and the fetchedAt entry,
    holding the clock reading taken after the fetch; they are the last
    two entries of the metadata object whatever was harvested, and the
    only ones for a document with no title, no meta element and no
    article. *)
Theorem front_matter_always (url : string) (simplify : bool) (timeout : Z)
    (w : world W) (r : fetch_result) (w' : world W) :
  fetchSingleUrl C url true simplify timeout w = (r, w') ->
  success r = true ->
  exists (pre : t) (ts md : string),
    ts = fst (clock C (snd (transport C url timeout (env w))))
    /\ (forall k, In k (keys pre) -> Spec.harvested_key k = true)
    /\ content r
       = Some (front_matter (pre ++ [("url", url); ("fetchedAt", ts)])%list ++ md)
    /\ front_matter (pre ++ [("url", url); ("fetchedAt", ts)])%list
       = "---" ++ nl ++ String.concat "" (map front_matter_line pre)
         ++ "url: " ++ url ++ nl ++ "fetchedAt: " ++ ts ++ nl
         ++ "---" ++ nl ++ nl
    /\ (forall status statusText html doc,
          fst (transport C url timeout (env w)) = Responded status statusText html ->
          jsdom C html = Ok doc ->
          title_text doc = None -> meta_tags doc = [] ->
          Spec.seeded_metadata C html url true simplify = [] ->
          pre = []).
Proof.
  rewrite fetchSingleUrl_run.
  destruct (transport C url timeout (env w)) as [tr e1].
  destruct tr as [st txt html|m|m]; simpl snd;
    try (intros E; inversion E; subst; discriminate).
  destruct (st <? 400); [|intros E; inversion E; subst; discriminate].
  destruct (turndown C Turndown.turndownService
              (Spec.converted_fragment C html url simplify)) as [md|e];
    [|intros E; inversion E; subst; discriminate].
  destruct (jsdom C html) as [doc|e] eqn:Ed;
    [|intros E; inversion E; subst; discriminate].
  destruct (clock C e1) as [ts e2] eqn:Ec.
  intros E _. inversion E; subst; clear E.
  set (pre := harvest_tags (meta_tags doc)
                (title_fallback doc
                   (Spec.seeded_metadata C html url true simplify))).
  assert (Hk : forall k, In k (keys pre) -> Spec.harvested_key k = true)
    by (intro k; apply harvested_keys).
  exists pre, ts, md. simpl fst.
  repeat split.
  - exact Hk.
  - simpl content. rewrite (synthetic_entries_last pre url ts Hk).
    unfold assemble. f_equal. f_equal.
    unfold keys. rewrite length_map, length_app. simpl.
    replace (0 <? _) with true; [reflexivity|].
    symmetry. apply Z.ltb_lt. lia.
  - apply front_matter_synthetic.
  - intros status statusText html' doc' Ht Hd Htitle Hmeta Hseed.
    simpl in Ht. inversion Ht; subst.
    rewrite Ed in Hd. inversion Hd; subst.
    unfold pre. rewrite Hmeta, Hseed. unfold title_fallback.
    rewrite Htitle. reflexivity.
Qed.

(** C6, amended.  With simplify set and no article extracted, the run is
    the run of the same request with simplify unset: the fragment
    converted is the full raw HTML and a text, when one is returned, is
    the front matter, empty unless metadata is requested, followed by the
    conversion of that HTML.  The result is always a value of
    [fetch_result]; nothing is thrown. *)
Theorem extraction_fallback (url : string) (includeMetadata : bool)
    (timeout : Z) (w : world W) (status : Z) (statusText html : string) :
  fst (transport C url timeout (env w)) = Responded status statusText html ->
  extractReadableContent C html url = None ->
  fetchSingleUrl C url includeMetadata true timeout w
  = fetchSingleUrl C url includeMetadata false timeout w
  /\ Spec.converted_fragment C html url true = html
  /\ (forall finalContent,
        content (fst (fetchSingleUrl C url includeMetadata true timeout w))
        = Some finalContent ->
        exists front md,
          turndown C Turndown.turndownService html = Ok md
          /\ finalContent = front ++ md
          /\ (includeMetadata = false -> front = ""))
  /\ ((exists finalContent,
         fst (fetchSingleUrl C url includeMetadata true timeout w)
         = succeeded finalContent)
      \/ (exists message,
            fst (fetchSingleUrl C url includeMetadata true timeout w)
            = failed message)).
Proof.
  intros Ht Hx.
  pose proof (fetchSingleUrl_outcome C url includeMetadata true timeout w) as Hout.
  revert Hout.
  assert (Hf : Spec.converted_fragment C html url true = html).
  { unfold Spec.converted_fragment. now rewrite Hx. }
  assert (Hs : Spec.seeded_metadata C html url true true
               = Spec.seeded_metadata C html url true false).
  { unfold Spec.seeded_metadata. now rewrite Hx. }
  rewrite !fetchSingleUrl_run.
  destruct (transport C url timeout (env w)) as [tr e1].
  simpl in Ht. subst tr.
  rewrite Hf. unfold Spec.converted_fragment at 1. rewrite Hs.
  intro Hout.
  split; [reflexivity|]. split; [reflexivity|]. split; [|exact Hout].
  clear Hout. intros finalContent.
  destruct (status <? 400); [|discriminate].
  destruct (turndown C Turndown.turndownService html) as [md|e]; [|discriminate].
  destruct includeMetadata.
  - destruct (jsdom C html) as [doc|e]; [|discriminate].
    destruct (clock C e1) as [ts e2]. simpl. intro E. injection E as <-.
    unfold assemble. eexists _, md. repeat split. discriminate.
  - simpl. intro E. injection E as <-. exists "", md. repeat split.
Qed.

(* ---------------------------------------------------------------- *)
(** *** Empty keys and values                                         *)





(** The slip of the title fallback, on any document: a [<title>] whose
    text is white space only, when no article seeded a title, is stored
    with the empty string as value. *)
Lemma whitespace_title_stored (doc : document) (textContent : string) :
  title_text doc = Some textContent ->
  (forall c, In c (list_ascii_of_string textContent) -> is_space c = true) ->
  title_fallback doc empty = [("title", "")].
Proof.
  intros Ht Hs. unfold title_fallback. simpl. rewrite Ht.
  now rewrite (trim_spaces _ Hs).
Qed.

End Assembly.

(** The scenario of the specification: a page titled Hello with one author
    meta element and no article, metadata requested, simplify set. *)
Example hello_scenario :
  fst (fetchSingleUrl Sample.libs Sample.hello_url true true 30000 Sample.w0)
  = succeeded ("---" ++ nl ++ "title: Hello" ++ nl ++ "author: Jane" ++ nl
               ++ "url: https://example.com/a" ++ nl
               ++ "fetchedAt: 2024-01-01T00:00:00.000Z" ++ nl
               ++ "---" ++ nl ++ nl ++ "Hello" ++ nl ++ nl ++ "Body").
Proof. reflexivity. Qed.

(** An article with a struck-through word, through the whole pipeline. *)
Example post_scenario :
  fst (fetchSingleUrl Sample.libs Sample.post_url false true 30000 Sample.w0)
  = succeeded "Text ~~old~~".
Proof. reflexivity. Qed.

(** A batch with a failure in the middle: three sections, in input order. *)
Example batch_scenario :
  fst (fetch_urls Sample.libs
         [Sample.post_url; Sample.missing_url; Sample.blank_url]
         false true 30000 Sample.w0)
  = {| items :=
         [ {| type := "text";
              text := "# Batch Fetch Results" ++ nl ++ nl
                      ++ "## https://example.com/post" ++ nl ++ nl
                      ++ "Text ~~old~~" ++ nl ++ nl ++ "---" ++ nl ++ nl
                      ++ "## https://example.com/missing" ++ nl ++ nl
                      ++ "**Error:** HTTP 404: Not Found" ++ nl ++ nl
                      ++ "---" ++ nl ++ nl
                      ++ "## https://example.com/blank" ++ nl ++ nl
                      ++ "" ++ nl ++ nl ++ "---" ++ nl ++ nl |} ];
       isError := None |}.
Proof. reflexivity. Qed.

(** C5.  On the page whose [<title>] holds one space, with metadata
    requested, the metadata object gets the entry title with the empty
    string as value, and the front matter the line that shows it. *)
Lemma empty_title_stored :
  fst (collect_metadata Sample.libs Sample.untitled_page Sample.untitled_url
         true JsObject.empty {| env := tt; issued := [Sample.untitled_url] |})
  = Ok [("title", ""); ("url", Sample.untitled_url); ("fetchedAt", Sample.stamp)]
  /\ fst (fetchSingleUrl Sample.libs Sample.untitled_url true false 30000 Sample.w0)
     = {| success := true;
          content := Some ("---" ++ nl ++ "title: " ++ nl
                           ++ "url: https://example.com/untitled" ++ nl
                           ++ "fetchedAt: 2024-01-01T00:00:00.000Z" ++ nl
                           ++ "---" ++ nl ++ nl ++ "Hi");
          error := None |}.
Proof.
  split; reflexivity.
Qed.

(** C6.  The blank page yields no article, and with simplify set and no
    metadata requested the text returned is empty. *)
Lemma fallback_output_can_be_empty :
  fst (Sample.site Sample.blank_url 30000 tt) = Responded 200 "OK" Sample.blank_page
  /\ extractReadableContent Sample.libs Sample.blank_page Sample.blank_url = None
  /\ fst (fetchSingleUrl Sample.libs Sample.blank_url false true 30000 Sample.w0)
     = {| success := true; content := Some ""; error := None |}
  /\ ~ (exists finalContent,
          content (fst (fetchSingleUrl Sample.libs Sample.blank_url false true
                          30000 Sample.w0)) = Some finalContent
          /\ finalContent <> "").
Proof.
  repeat split; try reflexivity.
  intros (finalContent & E & N). apply N. now injection E.
Qed.

Lemma front_matter_always_witness :
  exists (pre : JsObject.t) (ts md : string),
    ts = Sample.stamp
    /\ content (fst (fetchSingleUrl Sample.libs Sample.blank_url true true 30000
                       Sample.w0))
       = Some (front_matter (pre ++ [("url", Sample.blank_url); ("fetchedAt", ts)])%list
               ++ md)
    /\ pre = [].
Proof.
  destruct (front_matter_always Sample.libs Sample.blank_url true 30000 Sample.w0
              (fst (fetchSingleUrl Sample.libs Sample.blank_url true true 30000
                      Sample.w0))
              (snd (fetchSingleUrl Sample.libs Sample.blank_url true true 30000
                      Sample.w0))
              eq_refl eq_refl)
    as (pre & ts & md & Hts & _ & Hc & _ & Hpre).
  exists pre, ts, md. repeat split.
  - exact Hts.
  - exact Hc.
  - apply (Hpre 200 "OK" Sample.blank_page {| title_text := None; meta_tags := [] |});
      reflexivity.
Defined.

Lemma extraction_fallback_witness :
  fetchSingleUrl Sample.libs Sample.hello_url true true 30000 Sample.w0
  = fetchSingleUrl Sample.libs Sample.hello_url true false 30000 Sample.w0.
Proof.
  apply (extraction_fallback Sample.libs Sample.hello_url true 30000 Sample.w0
           200 "OK" Sample.hello_page); reflexivity.
Defined.

(* ================================================================== *)
(** ** The batch handler                                                *)
(* ================================================================== *)

Section Batch.

Context {W : Type} (C : Collaborators W).
Variables (includeMetadata simplify : bool) (timeout : Z).

Local Notation "'step'" := (fetch_urls_step C includeMetadata simplify timeout).
Local Notation "'run'" := (Spec.batch_run C includeMetadata simplify timeout).

(** One run of the pipeline issues one request, for its URL. *)
Lemma fetchSingleUrl_issued (url : string) (w : world W) :
  issued (snd (fetchSingleUrl C url includeMetadata simplify timeout w))
  = (issued w ++ [url])%list.
Proof.
  rewrite fetchSingleUrl_run.
  destruct (transport C url timeout (env w)) as [tr e1].
  destruct tr as [st txt html|m|m]; try reflexivity.
  destruct (st <? 400); [|reflexivity].
  destruct (turndown C Turndown.turndownService _); [|reflexivity].
  destruct includeMetadata; [|reflexivity].
  destruct (jsdom C html); [|reflexivity].
  now destruct (clock C e1).
Qed.

(** One turn of the loop pushes one entry, for the URL of the turn, that
    holds the outcome of the run. *)
Lemma fetch_urls_step_push (results : list batch_entry) (w : world W)
    (url : string) :
  exists entry,
    step (results, w) url
    = ((results ++ [entry])%list,
       snd (fetchSingleUrl C url includeMetadata simplify timeout w))
    /\ Spec.entry_outcome entry
       = (url, Spec.outcome_of
                 (fst (fetchSingleUrl C url includeMetadata simplify timeout w))).
Proof.
  unfold fetch_urls_step.
  destruct (fetchSingleUrl C url includeMetadata simplify timeout w) as [r w1].
  unfold Spec.entry_outcome, Spec.outcome_of. simpl.
  destruct (success r) eqn:E; eexists; split; try reflexivity; simpl;
    reflexivity.
Qed.

(** The loop from any accumulator: what was there stays in front, and what
    is pushed is the sequential run of the pipeline over the URLs. *)
Lemma fetch_urls_loop (urls : list string) :
  forall (acc : list batch_entry) (w : world W),
  exists (pushed : list batch_entry) (w' : world W),
    fold_left step urls (acc, w) = ((acc ++ pushed)%list, w')
    /\ run urls w (map Spec.entry_outcome pushed) w'
    /\ map e_url pushed = urls
    /\ issued w' = (issued w ++ urls)%list.
Proof.
  induction urls as [|url urls IH]; intros acc w; cbn [fold_left].
  - exists [], w. rewrite !app_nil_r. repeat split. constructor.
  - destruct (fetch_urls_step_push acc w url) as (entry & Hstep & Hout).
    rewrite Hstep.
    destruct (IH (acc ++ [entry])%list
                (snd (fetchSingleUrl C url includeMetadata simplify timeout w)))
      as (pushed & w' & Hfold & Hrun & Hurls & Hissued).
    exists (entry :: pushed), w'. repeat split.
    + rewrite Hfold, <- List.app_assoc. reflexivity.
    + simpl. rewrite Hout.
      apply Spec.batch_next
        with (w1 := snd (fetchSingleUrl C url includeMetadata simplify timeout w));
        [|exact Hrun].
      now destruct (fetchSingleUrl C url includeMetadata simplify timeout w).
    + simpl. rewrite Hurls. f_equal.
      injection Hout as Hu _. exact Hu.
    + rewrite Hissued, fetchSingleUrl_issued, <- List.app_assoc. reflexivity.
Qed.

(** C1.  The batch loop runs the pipeline once per URL, one run after the
    other in input order and whatever the earlier outcomes, and returns
    one entry per URL, in input order, each holding the outcome of its
    run; the requests issued are those for the input URLs, in order. *)
Theorem fetch_urls_sequential (urls : list string) (w : world W) :
  let (results, w') :=
    fetch_urls_results C urls includeMetadata simplify timeout w in
  run urls w (map Spec.entry_outcome results) w'
  /\ List.length results = List.length urls
  /\ map e_url results = urls
  /\ issued w' = (issued w ++ urls)%list.
Proof.
  unfold fetch_urls_results.
  destruct (fetch_urls_loop urls [] w) as (pushed & w' & Hfold & Hrun & Hurls & Hissued).
  rewrite Hfold. simpl. repeat split; trivial.
  rewrite <- Hurls. now rewrite length_map.
Qed.

Lemma render_step_section (output : string) (entry : batch_entry) :
  render_step output entry
  = output ++ Spec.report_section (Spec.entry_outcome entry).
Proof.
  unfold render_step, Spec.report_section, Spec.entry_outcome.
  destruct (e_success entry); normalize_strings; reflexivity.
Qed.

Lemma render_loop (results : list batch_entry) :
  forall output,
    fold_left render_step results output
    = output ++ String.concat "" (map Spec.report_section
                                    (map Spec.entry_outcome results)).
Proof.
  induction results as [|entry rest IH]; intro output; simpl.
  - now rewrite app_empty_r.
  - rewrite IH, render_step_section, app_assoc. f_equal.
    destruct rest; simpl; [now rewrite app_empty_r | reflexivity].
Qed.

(** C8.  The batch handler always answers with a payload that carries no
    error flag; its text is the top-level heading followed, for each URL
    in input order, by a subheading with the URL, then the text of a
    successful run or the line that starts with the bold Error label and
    gives the message of a failed one, then a horizontal rule. *)
Theorem fetch_urls_report (urls : list string) (w : world W) :
  exists (outcomes : list (string * Spec.FetchOutcome)) (w' : world W),
    fetch_urls C urls includeMetadata simplify timeout w
    = ({| items := [ {| type := "text"; text := Spec.report outcomes |} ];
          isError := None |}, w')
    /\ run urls w outcomes w'
    /\ map fst outcomes = urls.
Proof.
  unfold fetch_urls, fetch_urls_results.
  destruct (fetch_urls_loop urls [] w) as (pushed & w' & Hfold & Hrun & Hurls & _).
  rewrite Hfold. simpl.
  exists (map Spec.entry_outcome pushed), w'. repeat split.
  - unfold render_report, Spec.report. now rewrite render_loop.
  - exact Hrun.
  - rewrite map_map. exact Hurls.
Qed.

End Batch.


(* ================================================================== *)
(** ** Beyond the claims: extraction, faults and effects                *)
(* ================================================================== *)

Section Faults.

Context {W : Type} (C : Collaborators W).

(** [extractReadableContent] returns an article exactly when the reader
    returns an object whose title and content are non-empty strings, with
    that title and content and with the byline when it is a non-empty
    string; a reader that throws, returns null or returns an empty title or
    content gives null. *)
Theorem extractReadableContent_article (html url : string) :
  (forall a,
      extractReadableContent C html url = Some a <->
      exists p,
        readability C html url = Ok (Some p)
        /\ p_title p = Some (art_title a) /\ art_title a <> ""
        /\ p_content p = Some (art_content a) /\ art_content a <> ""
        /\ art_byline a = (if truthy (p_byline p) then p_byline p else None))
  /\ (forall e, readability C html url = Throw e ->
                extractReadableContent C html url = None)
  /\ (readability C html url = Ok None ->
      extractReadableContent C html url = None).
Proof.
  unfold extractReadableContent. split; [|split].
  - intros [t c b]. simpl. split.
    + destruct (readability C html url) as [[p|]|]; try discriminate.
      destruct (p_title p) as [t'|] eqn:Et; try discriminate.
      destruct (p_content p) as [c'|] eqn:Ec; try discriminate.
      destruct (nonempty t') eqn:Nt; try discriminate.
      destruct (nonempty c') eqn:Nc; try discriminate.
      simpl. intro E. injection E as <- <- <-.
      apply nonempty_true in Nt. apply nonempty_true in Nc.
      exists p. unfold or_else. repeat split; trivial.
    + intros (p & Hr & Ht & Nt & Hc & Nc & Hb).
      rewrite Hr, Ht, Hc.
      apply nonempty_true in Nt. apply nonempty_true in Nc.
      rewrite Nt, Nc. simpl. unfold or_else. now rewrite Hb.
  - intros e Hr. now rewrite Hr.
  - intros Hr. now rewrite Hr.
Qed.

(** A request that gets no response fails with the fixed message, whatever
    the transport reported; one that could not be sent fails with the
    message of the transport.  Either way the clock is not read. *)
Theorem transport_failure (url : string) (includeMetadata simplify : bool)
    (timeout : Z) (w : world W) (message : string) (e1 : W) :
  (transport C url timeout (env w) = (NoReply message, e1) ->
   fst (fetchSingleUrl C url includeMetadata simplify timeout w)
   = failed "No response received from server"
   /\ env (snd (fetchSingleUrl C url includeMetadata simplify timeout w)) = e1)
  /\ (transport C url timeout (env w) = (NotSent message, e1) ->
      fst (fetchSingleUrl C url includeMetadata simplify timeout w)
      = failed message
      /\ env (snd (fetchSingleUrl C url includeMetadata simplify timeout w)) = e1).
Proof.
  split; intro Ht; rewrite fetchSingleUrl_run, Ht; split; reflexivity.
Qed.

(** A fault thrown by the converter, or by the parser when metadata is
    requested, is caught: the run ends as a failure that carries the message
    of the error, or the fixed message when what was thrown is no error
    object, and the clock is not read. *)
Theorem library_fault (url : string) (includeMetadata simplify : bool)
    (timeout : Z) (w : world W) (status : Z) (statusText html : string)
    (e1 : W) (e : thrown) :
  transport C url timeout (env w) = (Responded status statusText html, e1) ->
  status < 400 ->
  turndown C Turndown.turndownService
    (Spec.converted_fragment C html url simplify) = Throw e
  \/ (includeMetadata = true
      /\ (exists md, turndown C Turndown.turndownService
                       (Spec.converted_fragment C html url simplify) = Ok md)
      /\ jsdom C html = Throw e) ->
  fetchSingleUrl C url includeMetadata simplify timeout w
  = (failed match e with
            | JsError message => message
            | NonError => "Failed to fetch URL"
            | AxiosError _ _ _ => errorMessage e
            end,
     {| env := e1; issued := (issued w ++ [url])%list |}).
Proof.
  intros Ht Hs Hf. rewrite fetchSingleUrl_run, Ht.
  assert (E : (status <? 400) = true) by (apply Z.ltb_lt; lia). rewrite E.
  destruct Hf as [Hc|(-> & (md & Hc) & Hd)]; rewrite Hc.
  - now destruct e.
  - rewrite Hd. now destruct e.
Qed.


(** The footprint of a run: one call of [axios.get], with the URL, and
    one reading of the clock exactly when metadata is requested and the run
    succeeds. *)
Theorem fetchSingleUrl_footprint (url : string) (includeMetadata simplify : bool)
    (timeout : Z) (w : world W) :
  let (r, w') := fetchSingleUrl C url includeMetadata simplify timeout w in
  let e1 := snd (transport C url timeout (env w)) in
  issued w' = (issued w ++ [url])%list
  /\ env w' = if includeMetadata && success r then snd (clock C e1) else e1.
Proof.
  rewrite fetchSingleUrl_run.
  destruct (transport C url timeout (env w)) as [tr e1].
  destruct tr as [st txt html|m|m]; simpl;
    try (rewrite andb_false_r; split; reflexivity).
  destruct (st <? 400); [|rewrite andb_false_r; split; reflexivity].
  destruct (turndown C Turndown.turndownService _);
    [|rewrite andb_false_r; split; reflexivity].
  destruct includeMetadata; [|split; reflexivity].
  destruct (jsdom C html); [|split; reflexivity].
  destruct (clock C e1). split; reflexivity.
Qed.

(** The answer of [fetch_url]: one text item.  It carries no error flag
    exactly when the run succeeded with a non-empty text, and then holds
    that text; otherwise it is flagged and reads Error fetching, the URL and
    a message that is never empty: the message of the failure, or Unknown
    error when that message or the text of a success is empty.  The handler
    adds no effect to those of the run. *)
Theorem fetch_url_payload (url : string) (includeMetadata simplify : bool)
    (timeout : Z) (w : world W) :
  let (r, w1) := fetchSingleUrl C url includeMetadata simplify timeout w in
  exists body,
    fetch_url C url includeMetadata simplify timeout w
    = ({| items := [ {| type := "text"; text := body |} ];
          isError := if success r && truthy (content r) then None else Some true |},
       w1)
    /\ ((exists finalContent,
            r = succeeded finalContent /\ finalContent <> ""
            /\ body = finalContent)
        \/ (exists message,
              body = "Error fetching " ++ url ++ ": " ++ message
              /\ message <> ""
              /\ (r = failed message
                  \/ (message = "Unknown error"
                      /\ (r = failed "" \/ r = succeeded ""))))).
Proof.
  pose proof (fetchSingleUrl_outcome C url includeMetadata simplify timeout w) as Ho.
  unfold fetch_url.
  destruct (fetchSingleUrl C url includeMetadata simplify timeout w) as [r w1].
  simpl in Ho. destruct Ho as [[t ->]|[m ->]]; simpl.
  - destruct t as [|c t]; simpl; eexists; (split; [reflexivity|]).
    + right. exists "Unknown error". repeat split; try discriminate. auto.
    + left. eexists. repeat split. discriminate.
  - destruct m as [|c m]; simpl; eexists; (split; [reflexivity|]).
    + right. exists "Unknown error". repeat split; try discriminate. auto.
    + right. eexists. repeat split; try discriminate. auto.
Qed.

End Faults.

Lemma transport_failure_witness :
  fst (fetchSingleUrl Fixture.libs Fixture.silent_url true true 30000 Fixture.w0)
  = failed "No response received from server"
  /\ fst (fetchSingleUrl Fixture.libs "nowhere" true true 30000 Fixture.w0)
     = failed "Invalid URL".
Proof.
  split.
  - apply (proj1 (transport_failure Fixture.libs Fixture.silent_url true true
                    30000 Fixture.w0 "timeout of 30000ms exceeded" 0%nat)).
    reflexivity.
  - apply (proj2 (transport_failure Fixture.libs "nowhere" true true 30000
                    Fixture.w0 "Invalid URL" 0%nat)).
    reflexivity.
Defined.

Lemma library_fault_witness :
  fetchSingleUrl Fixture.libs Fixture.broken_url false false 30000 Fixture.w0
  = (failed "conversion failed",
     {| env := 0%nat; issued := [Fixture.broken_url] |})
  /\ fetchSingleUrl Fixture.libs Fixture.unparsed_url true true 30000 Fixture.w0
     = (failed "parse failed",
        {| env := 0%nat; issued := [Fixture.unparsed_url] |})
  /\ fetchSingleUrl Fixture.libs Fixture.odd_url false true 30000 Fixture.w0
     = (failed "Failed to fetch URL",
        {| env := 0%nat; issued := [Fixture.odd_url] |}).
Proof.
  split; [|split].
  - apply (library_fault Fixture.libs Fixture.broken_url false false 30000
             Fixture.w0 200 "OK" Fixture.broken_page 0%nat
             (JsError "conversion failed"));
      [reflexivity | lia | left; reflexivity].
  - apply (library_fault Fixture.libs Fixture.unparsed_url true true 30000
             Fixture.w0 200 "OK" Fixture.unparsed_page 0%nat
             (JsError "parse failed"));
      [reflexivity | lia |].
    right. split; [reflexivity|]. split; [exists "plain"|]; reflexivity.
  - apply (library_fault Fixture.libs Fixture.odd_url false true 30000
             Fixture.w0 200 "OK" Fixture.odd_page 0%nat NonError);
      [reflexivity | lia | left; reflexivity].
Defined.


(* ================================================================== *)
(** ** Beyond the claims: what the metadata holds                       *)
(* ================================================================== *)

Section MetadataContents.

Import JsObject.

(** What the classification can store: the value of the element, under one
    of the three fixed keys or under a candidate that contains og: and none
    of the three words. *)
Lemma stored_destination (k c d v : string) :
  Spec.stored k c = Some (d, v) ->
  v = c
  /\ (d = "description" \/ d = "author" \/ d = "keywords"
      \/ (d = k /\ includes k "og:" = true
          /\ includes k "description" = false
          /\ includes k "author" = false
          /\ includes k "keywords" = false)).
Proof.
  unfold Spec.stored. rewrite destination_cases.
  destruct (includes k "description"); [intro E; injection E as <- <-; auto|].
  destruct (includes k "author"); [intro E; injection E as <- <-; auto|].
  destruct (includes k "keywords"); [intro E; injection E as <- <-; auto 6|].
  destruct (includes k "og:"); [|discriminate].
  intro E; injection E as <- <-. auto 10.
Qed.

Lemma set_present (k v : string) (o : t) :
  In k (keys o) -> keys (set k v o) = keys o.
Proof.
  induction o as [|[k' v'] o IH]; simpl; [tauto|].
  destruct (String.eqb_spec k k') as [->|N]; simpl; [reflexivity|].
  intros [E|H]; [congruence|]. now rewrite IH.
Qed.

(** The meta loop never removes or moves an entry: the keys it finds stay
    in front, in their order, and each key it adds is new, and is
    description, author, keywords, or a candidate that contains og: and
    none of these three words. *)
Theorem harvest_appends (tags : list meta_tag) (md : t) :
  exists added,
    keys (harvest_tags tags md) = (keys md ++ added)%list
    /\ forall k, In k added ->
         ~ In k (keys md)
         /\ (k = "description" \/ k = "author" \/ k = "keywords"
             \/ (includes k "og:" = true
                 /\ includes k "description" = false
                 /\ includes k "author" = false
                 /\ includes k "keywords" = false)).
Proof.
  unfold harvest_tags. revert md.
  induction tags as [|tag rest IH]; intro md; cbn [fold_left].
  - exists []. rewrite app_nil_r. split; [reflexivity | contradiction].
  - destruct (IH (harvest_tag md tag)) as (added & Hk & Ha).
    rewrite harvest_tag_stored in Hk, Ha |- *.
    destruct (meta_key tag) as [k|]; [|now exists added].
    destruct (attr_content tag) as [c|]; [|now exists added].
    destruct (nonempty k && nonempty c); [|now exists added].
    destruct (Spec.stored k c) as [[d v]|] eqn:Es; [|now exists added].
    apply stored_destination in Es. destruct Es as (_ & Hd).
    destruct (in_dec string_dec d (keys md)) as [I|N].
    + rewrite (set_present d v md I) in Hk, Ha. now exists added.
    + assert (Hf : keys (set d v md) = (keys md ++ [d])%list).
      { rewrite (set_fresh d v md N). unfold keys. now rewrite map_app. }
      rewrite Hf in Hk, Ha.
      exists (d :: added). split.
      * rewrite Hk, <- List.app_assoc. reflexivity.
      * intros k' [<-|I].
        -- split; [exact N|].
           destruct Hd as [Hd|[Hd|[Hd|(-> & Hd)]]]; auto 10.
        -- destruct (Ha k' I) as (Hn & Hc). split; [|exact Hc].
           intro I'. apply Hn. apply in_or_app. now left.
Qed.

(** An element without a usable key or value changes nothing: no content
    attribute or an empty one, neither a non-empty name nor a non-empty
    property, or a candidate that contains none of the four patterns.  An
    empty name attribute counts as none: the property attribute is read. *)
Theorem harvest_tag_skips (md : t) (tag : meta_tag) :
  (truthy (attr_content tag) = false -> harvest_tag md tag = md)
  /\ (truthy (attr_name tag) = false -> truthy (attr_property tag) = false ->
      harvest_tag md tag = md)
  /\ (forall k, meta_key tag = Some k ->
                includes k "description" = false -> includes k "author" = false ->
                includes k "keywords" = false -> includes k "og:" = false ->
                harvest_tag md tag = md)
  /\ (truthy (attr_name tag) = false ->
      harvest_tag md tag
      = harvest_tag md {| attr_name := None;
                          attr_property := attr_property tag;
                          attr_content := attr_content tag |}).
Proof.
  unfold harvest_tag, meta_key, or_else. repeat split.
  - intro Hc.
    destruct (if truthy (attr_name tag) then attr_name tag else attr_property tag);
      [|reflexivity].
    destruct (attr_content tag) as [c|]; [|reflexivity].
    simpl in Hc. rewrite Hc. now rewrite andb_false_r.
  - intros Hn Hp. rewrite Hn.
    destruct (attr_property tag) as [p|]; [|reflexivity].
    simpl in Hp. rewrite Hp.
    now destruct (attr_content tag).
  - intros k Hk H1 H2 H3 H4. rewrite Hk.
    destruct (attr_content tag); [|reflexivity].
    rewrite H1, H2, H3, H4. now destruct (nonempty k && nonempty s).
  - intro Hn. rewrite Hn. reflexivity.
Qed.


Context {W : Type} (C : Collaborators W).





End MetadataContents.

Lemma harvest_tag_skips_witness :
  harvest_tag [("title", "T")]
    {| attr_name := Some "viewport"; attr_property := None;
       attr_content := Some "width=device-width" |}
  = [("title", "T")].
Proof.
  apply (proj1 (proj2 (proj2 (harvest_tag_skips [("title", "T")]
           {| attr_name := Some "viewport"; attr_property := None;
              attr_content := Some "width=device-width" |}))) "viewport");
    reflexivity.
Defined.



(* ================================================================== *)
(** ** Beyond the claims: batches                                       *)
(* ================================================================== *)

Section BatchComposition.

Context {W : Type} (C : Collaborators W).
Variables (includeMetadata simplify : bool) (timeout : Z).

Local Notation "'step'" := (fetch_urls_step C includeMetadata simplify timeout).
Local Notation "'results_of'" :=
  (fun urls w => fetch_urls_results C urls includeMetadata simplify timeout w).
Local Notation "'run_one'" :=
  (fun url w => fetchSingleUrl C url includeMetadata simplify timeout w).

Lemma fetch_urls_step_entry (acc : list batch_entry) (w : world W) (url : string) :
  step (acc, w) url
  = ((acc ++ [entry_of url (fst (run_one url w))])%list, snd (run_one url w)).
Proof.
  unfold fetch_urls_step, entry_of.
  destruct (fetchSingleUrl C url includeMetadata simplify timeout w) as [r w1].
  simpl. now destruct (success r).
Qed.

(** What the loop pushes does not depend on what is already there. *)
Lemma fetch_urls_accumulate (urls : list string) :
  forall (acc : list batch_entry) (w : world W),
    fold_left step urls (acc, w)
    = ((acc ++ fst (results_of urls w))%list, snd (results_of urls w)).
Proof.
  unfold fetch_urls_results.
  induction urls as [|url urls IH]; intros acc w; cbn [fold_left].
  - simpl. now rewrite app_nil_r.
  - rewrite !fetch_urls_step_entry.
    rewrite (IH (acc ++ _)%list), (IH ([] ++ _)%list).
    simpl. now rewrite <- List.app_assoc.
Qed.

Lemma fetch_urls_results_cons (url : string) (urls : list string) (w : world W) :
  results_of (url :: urls) w
  = (entry_of url (fst (run_one url w))
       :: fst (results_of urls (snd (run_one url w))),
     snd (results_of urls (snd (run_one url w)))).
Proof.
  unfold fetch_urls_results at 1. cbn [fold_left].
  rewrite fetch_urls_step_entry, fetch_urls_accumulate. reflexivity.
Qed.

(** A batch over a list in two parts is the batch over the first part
    followed, in the world it leaves, by the batch over the second; the
    batch over no URL pushes nothing and leaves the world as it is. *)
Theorem batch_composition (urls1 urls2 : list string) (w : world W) :
  results_of (urls1 ++ urls2)%list w
  = ((fst (results_of urls1 w)
        ++ fst (results_of urls2 (snd (results_of urls1 w))))%list,
     snd (results_of urls2 (snd (results_of urls1 w))))
  /\ results_of [] w = ([], w).
Proof.
  split; [|reflexivity].
  unfold fetch_urls_results at 1. rewrite fold_left_app.
  fold (fetch_urls_results C urls1 includeMetadata simplify timeout w).
  destruct (fetch_urls_results C urls1 includeMetadata simplify timeout w)
    as [r1 w1] eqn:E1.
  rewrite fetch_urls_accumulate. reflexivity.
Qed.

(** Every entry the first loop pushes is a success with a text and no
    error, or a failure with a message and no text: the report never has to
    print a missing field. *)
Theorem batch_entries_well_formed (urls : list string) (w : world W) :
  Forall well_formed_entry (fst (results_of urls w)).
Proof.
  revert w. induction urls as [|url urls IH]; intro w.
  - constructor.
  - rewrite fetch_urls_results_cons. simpl. constructor; [|apply IH].
    unfold well_formed_entry, entry_of.
    destruct (fetchSingleUrl_outcome C url includeMetadata simplify timeout w)
      as [[t ->]|[m ->]]; simpl; [left | right]; eauto.
Qed.

(** A batch of one URL is one run of the pipeline: the report is the
    heading, the subheading with the URL, then the text of a success, even
    an empty one, or the error line of a failure, then the rule; the payload
    is not flagged either way. *)
Theorem single_url_batch (url : string) (w : world W) :
  (forall finalContent,
      fst (run_one url w) = succeeded finalContent ->
      fetch_urls C [url] includeMetadata simplify timeout w
      = ({| items :=
              [ {| type := "text";
                   text := "# Batch Fetch Results" ++ nl ++ nl
                           ++ "## " ++ url ++ nl ++ nl
                           ++ finalContent ++ nl ++ nl
                           ++ "---" ++ nl ++ nl |} ];
            isError := None |},
         snd (run_one url w)))
  /\ (forall message,
        fst (run_one url w) = failed message ->
        fetch_urls C [url] includeMetadata simplify timeout w
        = ({| items :=
                [ {| type := "text";
                     text := "# Batch Fetch Results" ++ nl ++ nl
                             ++ "## " ++ url ++ nl ++ nl
                             ++ "**Error:** " ++ message ++ nl ++ nl
                             ++ "---" ++ nl ++ nl |} ];
              isError := None |},
           snd (run_one url w))).
Proof.
  split; intros x Hr; unfold fetch_urls;
    rewrite fetch_urls_results_cons; simpl; rewrite Hr;
    unfold render_report, entry_of; simpl;
    unfold render_step; simpl; do 3 f_equal;
    normalize_strings; reflexivity.
Qed.

End BatchComposition.

Lemma single_url_batch_witness :
  fetch_urls Sample.libs [Sample.blank_url] false true 30000 Sample.w0
  = ({| items :=
          [ {| type := "text";
               text := "# Batch Fetch Results" ++ nl ++ nl
                       ++ "## " ++ Sample.blank_url ++ nl ++ nl
                       ++ "" ++ nl ++ nl ++ "---" ++ nl ++ nl |} ];
        isError := None |},
     {| env := tt; issued := [Sample.blank_url] |})
  /\ fst (fetch_urls Fixture.libs [Fixture.silent_url] false true 30000 Fixture.w0)
     = {| items :=
            [ {| type := "text";
                 text := "# Batch Fetch Results" ++ nl ++ nl
                         ++ "## " ++ Fixture.silent_url ++ nl ++ nl
                         ++ "**Error:** " ++ "No response received from server"
                         ++ nl ++ nl ++ "---" ++ nl ++ nl |} ];
          isError := None |}.
Proof.
  split.
  - apply (proj1 (single_url_batch Sample.libs false true 30000
                    Sample.blank_url Sample.w0) "").
    reflexivity.
  - rewrite (proj2 (single_url_batch Fixture.libs false true 30000
                      Fixture.silent_url Fixture.w0)
               "No response received from server"); reflexivity.
Defined.

(* ================================================================== *)
(** ** Beyond the claims: metadata and the body                         *)
(* ================================================================== *)

Section MetadataAndBody.

Context {W : Type} (C : Collaborators W).

Import JsObject.



End MetadataAndBody.


